(** * recipe-chatbot: the conversation turn of [backend/utils.py]

    A shallow embedding of [backend/utils.py]: the module-level constants
    [SYSTEM_PROMPT] and [MODEL_NAME], and the function [get_agent_response],
    which puts a system message in front of a conversation when there is none,
    sends the conversation to the completion provider and returns the
    conversation extended with the stripped reply.

    Python values are modelled as follows.
    - A [str] is the list of its Unicode code points.
    - A message, a [Dict[str, str]], is a finite map from [str] to [str].
    - A list object lives in a heap and is named by a location; [+] on lists
      allocates a new list object.  The function never writes to a dict, so
      dicts are held by value.
    - The completion provider and the standard output are effects on a
      [world]: every request is logged, every printed line is kept.
    - An exception ends the computation with [Raise e]. *)

From Stdlib Require Import NArith ZArith String Ascii.
From stdpp Require Import base option list gmap.

Local Open Scope N_scope.
Set Warnings "-register-all".

(** ** Python strings *)

(** A Python [str]: a sequence of Unicode code points. *)
Definition pystr : Type := list N.

(** A literal whose characters are ASCII. *)
Definition py (s : string) : pystr :=
  List.map N_of_ascii (list_ascii_of_string s).
Global Arguments py : simpl never.

(** [str.isspace] on one character, as CPython's [_PyUnicode_IsWhitespace]
    decides it: the characters of category Zs or of bidirectional class WS, B
    or S. *)
Definition isspace (c : N) : bool :=
  ((9 <=? c) && (c <=? 13))
  || ((28 <=? c) && (c <=? 31))
  || (c =? 32)
  || (c =? 133)
  || (c =? 160)
  || (c =? 5760)
  || ((8192 <=? c) && (c <=? 8202))
  || (c =? 8232)
  || (c =? 8233)
  || (c =? 8239)
  || (c =? 8287)
  || (c =? 12288).

(** [str.lstrip()]: drop the leading whitespace. *)
Fixpoint lstrip (s : pystr) : pystr :=
  match s with
  | [] => []
  | c :: s' => if isspace c then lstrip s' else s
  end.

(** [str.rstrip()]: drop the trailing whitespace. *)
Definition rstrip (s : pystr) : pystr := reverse (lstrip (reverse s)).

(** [str.strip()] with no argument: drop the whitespace at both ends. *)
Definition strip (s : pystr) : pystr := rstrip (lstrip s).

(** ** [textwrap.dedent] *)

Definition newline : N := 10.
Definition nl : pystr := [newline].

(** [text.split('\n')]; the accumulator holds the current line reversed. *)
Fixpoint split_lines_acc (acc : pystr) (s : pystr) : list pystr :=
  match s with
  | [] => [reverse acc]
  | c :: s' =>
      if c =? newline then reverse acc :: split_lines_acc [] s'
      else split_lines_acc (c :: acc) s'
  end.

Definition split_lines (s : pystr) : list pystr := split_lines_acc [] s.

(** ['\n'.join(lines)]. *)
Fixpoint join_lines (ls : list pystr) : pystr :=
  match ls with
  | [] => []
  | [l] => l
  | l :: ls' => l ++ nl ++ join_lines ls'
  end.

(** The characters of the class [[ \t]]. *)
Definition is_blank (c : N) : bool := (c =? 32) || (c =? 9).

(** The leading [[ \t]*] of a line. *)
Fixpoint indent_of (l : pystr) : pystr :=
  match l with
  | c :: l' => if is_blank c then c :: indent_of l' else []
  | [] => []
  end.

(** The longest common prefix of two strings. *)
Fixpoint common_prefix (a b : pystr) : pystr :=
  match a, b with
  | x :: a', y :: b' => if x =? y then x :: common_prefix a' b' else []
  | _, _ => []
  end.

(** The margin of [dedent]: the longest common prefix of the indents of
    the lines that hold a character. *)
Definition margin_of (indents : list pystr) : pystr :=
  match indents with
  | [] => []
  | i :: rest => foldl common_prefix i rest
  end.

(** [l.startswith(m)]. *)
Fixpoint startswith (m l : pystr) : bool :=
  match m, l with
  | [], _ => true
  | x :: m', y :: l' => (x =? y) && startswith m' l'
  | _ :: _, [] => false
  end.

(** One line of [re.sub(r'(?m)^' + margin, '', text)]: the margin is taken
    off the front of a line that starts with it. *)
Definition remove_margin (m l : pystr) : pystr :=
  if startswith m l then drop (length m) l else l.

(** [textwrap.dedent(text)]: the lines made of blanks only become empty, then
    the whitespace common to the front of all other lines is removed. *)
Definition dedent (text : pystr) : pystr :=
  let lines :=
    List.map (fun l => if forallb is_blank l then [] else l)
             (split_lines text) in
  let indents :=
    List.map indent_of
             (List.filter (fun l => negb (bool_decide (l = []))) lines) in
  let margin := margin_of indents in
  join_lines (List.map (remove_margin margin) lines).

(** ** The module-level constants *)

Inductive month : Type :=
  | January | February | March | April | May | June
  | July | August | September | October | November | December.

(** What [datetime.now()] returns, as far as the module reads it. *)
Record datetime : Type := { dt_year : Z; dt_month : month; dt_day : Z }.

(** [strftime("%B")]: the full name of the month.  The module does not set
    a locale, so the names are those of the C locale. *)
Definition strftime_B (d : datetime) : pystr :=
  py match dt_month d with
     | January => "January" | February => "February" | March => "March"
     | April => "April" | May => "May" | June => "June"
     | July => "July" | August => "August" | September => "September"
     | October => "October" | November => "November"
     | December => "December"
     end.

(** The argument of [textwrap.dedent]: four adjacent string literals, the
    second of which has the month name formatted in. *)
Definition system_prompt_template (month_name : pystr) : pystr :=
  (nl ++ py "    Role: "
   ++ nl ++ py "        You are a helpful and funny recipe recommender, who uses slang in its responses."
   ++ nl ++ py "    ")
  ++ (nl ++ py "    Instructions / Response Rules:"
      ++ nl ++ py "        - Respond in Russian language. Do not use any other language."
      ++ nl ++ py "        - Always provide incredient lists for the recipes. "
      ++ nl ++ py "        - Always suggest seasonal ingredients. Current season is "
      ++ month_name ++ py " and the country is Spain."
      ++ nl ++ py "        - Avoid using meat, cheese, eggs, and other dairy products."
      ++ nl ++ py "    ")
  ++ (nl ++ py "    Output formatting:    "
      ++ nl ++ py "        - Structure your responses clearly using Markdown for formatting"
      ++ nl ++ py "        - Begin every recipe response with the recipe name in Level 2 Heading (e.g., `## Amazing Blueberry Muffins`)"
      ++ nl ++ py "    ")
  ++ py "Think step by step".

(** The environment: [os.environ], and the assignments of the [.env] file. *)
Abbreviation environ := (gmap pystr pystr).

(** [load_dotenv(override=True)]: every assignment of the [.env] file is
    written into [os.environ], over a value already there. *)
Definition load_dotenv_override (dotenv env : environ) : environ :=
  dotenv ∪ env.

(** [os.environ.get(key, default)]. *)
Definition environ_get (env : environ) (key default : pystr) : pystr :=
  match env !! key with
  | Some v => v
  | None => default
  end.

(** The module's globals, bound once when the module is imported. *)
Record globals : Type := {
  SYSTEM_PROMPT : pystr;
  MODEL_NAME : pystr
}.

(** Importing the module: the [.env] file is loaded, the prompt is built
    with the month of the import, the model name is read from the
    environment. *)
Definition import_module (dotenv env : environ) (now : datetime) : globals :=
  let env' := load_dotenv_override dotenv env in
  {| SYSTEM_PROMPT := dedent (system_prompt_template (strftime_B now));
     MODEL_NAME := environ_get env' (py "MODEL_NAME") (py "gpt-4o-mini") |}.

(** ** Values, exceptions and subscripting *)

(** A subscript: a string key or an integer index. *)
Inductive subscript : Type :=
  | SKey (k : pystr)
  | SIdx (i : Z).

(** The values a completion response is made of.  [VDict] is a plain [dict];
    [VObj] is an object of litellm's response classes, whose [__getitem__]
    is [getattr]. *)
Inductive pyval : Type :=
  | VNone
  | VInt (z : Z)
  | VStr (s : pystr)
  | VList (l : list pyval)
  | VDict (d : gmap pystr pyval)
  | VObj (fields : gmap pystr pyval).

(** The exceptions.  [ProviderError] is any exception class of the
    completion library, named by its class and message; [SystemError] stands
    for a reference to no object, which CPython never hands out. *)
Inductive exn : Type :=
  | KeyError (k : subscript)
  | IndexError
  | TypeError
  | AttributeError (name : pystr)
  | ProviderError (cls msg : pystr)
  | SystemError.

(** The outcome of a computation: a value or a raised exception. *)
Inductive result (A : Type) : Type :=
  | Return (a : A)
  | Raise (e : exn).
Arguments Return {A} a.
Arguments Raise {A} e.

(** [seq[i]] on a sequence: a negative index counts from the end. *)
Definition seq_index {A : Type} (l : list A) (i : Z) : result A :=
  let n := Z.of_nat (length l) in
  let j := if (i <? 0)%Z then (n + i)%Z else i in
  if ((0 <=? j) && (j <? n))%Z then
    match l !! Z.to_nat j with
    | Some x => Return x
    | None => Raise IndexError
    end
  else Raise IndexError.

(** [v[k]]. *)
Definition getitem (v : pyval) (k : subscript) : result pyval :=
  match v, k with
  | VDict d, SKey key =>
      match d !! key with
      | Some x => Return x
      | None => Raise (KeyError k)
      end
  | VDict _, SIdx _ => Raise (KeyError k)
  | VObj fields, SKey key =>
      match fields !! key with
      | Some x => Return x
      | None => Raise (AttributeError key)
      end
  | VObj _, SIdx _ => Raise TypeError
  | VList l, SIdx i => seq_index l i
  | VList _, SKey _ => Raise TypeError
  | VStr s, SIdx i =>
      match seq_index s i with
      | Return c => Return (VStr [c])
      | Raise e => Raise e
      end
  | VStr _, SKey _ => Raise TypeError
  | VNone, _ => Raise TypeError
  | VInt _, _ => Raise TypeError
  end.

(** [v.strip()]: only a [str] has the method. *)
Definition call_strip (v : pyval) : result pystr :=
  match v with
  | VStr s => Return (strip s)
  | _ => Raise (AttributeError (py "strip"))
  end.

(** ** Messages, the heap and the world *)

(** A message: a [Dict[str, str]]. *)
Abbreviation message := (gmap pystr pystr).

(** [{"role": role, "content": content}]. *)
Definition mk_message (role content : pystr) : message :=
  <[py "role" := role]> (<[py "content" := content]> ∅).

(** [m[key]] on a message. *)
Definition message_getitem (m : message) (key : pystr) : result pystr :=
  match m !! key with
  | Some v => Return v
  | None => Raise (KeyError (SKey key))
  end.

(** The location of a list object. *)
Abbreviation loc := positive.

(** What the completion provider is called with. *)
Record request : Type := {
  req_model : pystr;
  req_messages : list message
}.

(** The state a call runs in: the list objects, the requests sent to the
    provider so far, the lines this module's own [print] has written so
    far.  What the completion library writes of its own is not recorded. *)
Record world : Type := {
  heap : gmap loc (list message);
  requests : list request;
  stdout : list pystr
}.

(** A computation: it reads and changes the world, and returns or raises. *)
Definition M (A : Type) : Type := world → result A * world.

Global Instance M_ret : MRet M := λ A a w, (Return a, w).

Global Instance M_bind : MBind M := λ A B f m w,
  match m w with
  | (Return a, w') => f a w'
  | (Raise e, w') => (Raise e, w')
  end.

(** Lift an outcome that needs no world. *)
Definition lift {A : Type} (r : result A) : M A := λ w, (r, w).

(** Read the list object at [l]. *)
Definition read_list (l : loc) : M (list message) := λ w,
  match heap w !! l with
  | Some xs => (Return xs, w)
  | None => (Raise SystemError, w)
  end.

(** Build a new list object. *)
Definition alloc_list (xs : list message) : M loc := λ w,
  let l := fresh (dom (heap w)) in
  (Return l,
   {| heap := <[l := xs]> (heap w);
      requests := requests w;
      stdout := stdout w |}).

(** [a + b] on lists: a new list object holding the elements of both. *)
Definition list_add (a b : loc) : M loc :=
  xs ← read_list a; ys ← read_list b; alloc_list (xs ++ ys).

(** [not a]: a list is false when it is empty. *)
Definition list_not (a : loc) : M bool :=
  xs ← read_list a; mret (bool_decide (xs = [])).

(** [a[i]] on a list object. *)
Definition list_getitem (a : loc) (i : Z) : M message :=
  xs ← read_list a; lift (seq_index xs i).

(** [print(line)]. *)
Definition print (line : pystr) : M unit := λ w,
  (Return tt,
   {| heap := heap w;
      requests := requests w;
      stdout := stdout w ++ [line] |}).

Section Agent.

(** The completion provider: given the requests sent before and the
    request at hand, it returns a response or raises. *)
Variable completion : list request → request → result pyval.

(** Hand a request to the provider: the request is logged, the provider's
    answer is the outcome. *)
Definition send (rq : request) : M pyval := λ w,
  (completion (requests w) rq,
   {| heap := heap w;
      requests := requests w ++ [rq];
      stdout := stdout w |}).

(** [litellm.completion(model=model, messages=messages)]: the provider
    reads the list it is handed. *)
Definition litellm_completion (model : pystr) (messages : loc) : M pyval :=
  xs ← read_list messages;
  send {| req_model := model; req_messages := xs |}.

(** [completion["choices"][0]["message"]["content"].strip()]. *)
Definition reply_content (completion_value : pyval) : result pystr :=
  match getitem completion_value (SKey (py "choices")) with
  | Raise e => Raise e
  | Return choices =>
      match getitem choices (SIdx 0) with
      | Raise e => Raise e
      | Return choice =>
          match getitem choice (SKey (py "message")) with
          | Raise e => Raise e
          | Return msg =>
              match getitem msg (SKey (py "content")) with
              | Raise e => Raise e
              | Return content => call_strip content
              end
          end
      end
  end.

(** [not messages or messages[0]["role"] != "system"]. *)
Definition needs_system_prompt (messages : loc) : M bool :=
  empty ← list_not messages;
  if (empty : bool) then mret true
  else
    first ← list_getitem messages 0;
    role ← lift (message_getitem first (py "role"));
    mret (bool_decide (role ≠ py "system")).

(** [get_agent_response(messages)]. *)
Definition get_agent_response (g : globals) (messages : loc) : M loc :=
  prepend ← needs_system_prompt messages;
  current_messages ←
    (if (prepend : bool) then
       system ← alloc_list [mk_message (py "system") (SYSTEM_PROMPT g)];
       list_add system messages
     else mret messages);
  _ ← print (py "Using model: " ++ MODEL_NAME g);
  completion_value ← litellm_completion (MODEL_NAME g) current_messages;
  assistant_reply_content ← lift (reply_content completion_value);
  reply ← alloc_list [mk_message (py "assistant") assistant_reply_content];
  list_add current_messages reply.

End Agent.

(** ** Reading a run *)

(** The role of the first message of a history, when there is one. *)
Definition first_role (h : list message) : option pystr :=
  m ← head h; m !! py "role".

(** The history starts with a system message. *)
Definition starts_with_system (h : list message) : Prop :=
  first_role h = Some (py "system").

(** The history is empty, or its first message has a role other than
    [system]. *)
Definition lacks_system (h : list message) : Prop :=
  h = [] ∨ ∃ r, first_role h = Some r ∧ r ≠ py "system".

(** The number of messages whose role is [system]. *)
Definition count_system (h : list message) : nat :=
  length (List.filter
            (λ m : message, bool_decide (m !! py "role" = Some (py "system")))
            h).

(** Every list object of [w] is still there, unchanged, in [w']. *)
Definition heap_preserved (w w' : world) : Prop :=
  ∀ l xs, heap w !! l = Some xs → heap w' !! l = Some xs.

(** A field of a response value, which is a dict or a response object. *)
Definition field (v : pyval) (k : pystr) : option pyval :=
  match v with
  | VDict d => d !! k
  | VObj d => d !! k
  | _ => None
  end.

(** The reply text of a response, as the provider's contract words it:
    [choices] is a list, its first element has a [message], which has a
    [content], which is a string. *)
Definition reply_text (v : pyval) : option pystr :=
  match field v (py "choices") with
  | Some (VList (choice :: _)) =>
      match field choice (py "message") ≫= (λ m, field m (py "content")) with
      | Some (VStr s) => Some s
      | _ => None
      end
  | _ => None
  end.

(** The exceptions that a response without the reply path ends in. *)
Definition malformed_response_error (e : exn) : bool :=
  match e with
  | KeyError _ | IndexError | TypeError | AttributeError _ => true
  | ProviderError _ _ | SystemError => false
  end.

(** The world after [alloc_list xs]. *)
Definition allocated (xs : list message) (w : world) : world :=
  {| heap := <[fresh (dom (heap w)) := xs]> (heap w);
     requests := requests w;
     stdout := stdout w |}.

(** A history the function accepts: it is empty, or its first message has
    a role. *)
Definition well_formed (h : list message) : Prop :=
  h = [] ∨ is_Some (first_role h).

(** The message the function puts in front of a history. *)
Definition system_message (g : globals) : message :=
  mk_message (py "system") (SYSTEM_PROMPT g).

(** What a run that reaches the provider with the history [current] does:
    it prints one line, sends one request, and either raises what the
    provider or the reply path raised, or returns a new list object that
    holds [current] and the reply. *)
Definition reaches_provider
    (completion : list request → request → result pyval) (g : globals)
    (current : list message) (w : world) (out : result loc * world) : Prop :=
  let rq := {| req_model := MODEL_NAME g; req_messages := current |} in
  heap_preserved w out.2
  ∧ requests out.2 = requests w ++ [rq]
  ∧ stdout out.2 = stdout w ++ [py "Using model: " ++ MODEL_NAME g]
  ∧ match completion (requests w) rq with
    | Raise e => out.1 = Raise e
    | Return v =>
        match reply_content v with
        | Raise e => out.1 = Raise e
        | Return s =>
            ∃ l', out.1 = Return l'
                  ∧ heap w !! l' = None
                  ∧ heap out.2 !! l'
                    = Some (current ++ [mk_message (py "assistant") s])
        end
    end.

(** ** Concrete data *)

Definition may_day : datetime :=
  {| dt_year := 2025; dt_month := May; dt_day := 1 |}.

(** The globals of a process started in May with no [MODEL_NAME] set. *)
Definition may_globals : globals := import_module ∅ ∅ may_day.

(** A world whose only list object, at location 1, is the history [h]. *)
Definition world_of (h : list message) : world :=
  {| heap := {[1%positive := h]}; requests := []; stdout := [] |}.

(** A provider that answers every request with [v]. *)
Definition answering (v : pyval) : list request → request → result pyval :=
  λ _ _, Return v.

(** A provider that raises [e] on every request. *)
Definition failing (e : exn) : list request → request → result pyval :=
  λ _ _, Raise e.

(** A response object whose reply text is [text]. *)
Definition response_of (text : pystr) : pyval :=
  VObj {[ py "choices" :=
            VList [VObj {[ py "message" :=
                             VObj {[ py "content" := VStr text ]} ]}] ]}.

Definition soup_reply : pystr :=
  py "  ## Soup" ++ nl ++ py "Ingredients: tomato".

Definition user_hi : message := mk_message (py "user") (py "hi").

Definition be_brief : message := mk_message (py "system") (py "Be brief.").

Definition rate_limit : exn :=
  ProviderError (py "RateLimitError") (py "quota exceeded").

Definition in_verse : message :=
  mk_message (py "system") (py "Answer in verse.").

(** A history with two system messages. *)
Definition two_system_messages : list message := [be_brief; in_verse].

(** A response with no choice, and one whose content is [None]. *)
Definition no_choice : pyval := VObj {[ py "choices" := VList [] ]}.

Definition none_content : pyval :=
  VObj {[ py "choices" :=
            VList [VObj {[ py "message" :=
                             VObj {[ py "content" := VNone ]} ]}] ]}.


(** The prompt as a process holds it: the template without its margin of
    four spaces, with the name of the month in it. *)
Definition prompt_text (month_name : pystr) : pystr :=
  nl ++ py "Role: "
  ++ nl ++ py "    You are a helpful and funny recipe recommender, who uses slang in its responses."
  ++ nl
  ++ nl ++ py "Instructions / Response Rules:"
  ++ nl ++ py "    - Respond in Russian language. Do not use any other language."
  ++ nl ++ py "    - Always provide incredient lists for the recipes. "
  ++ nl ++ py "    - Always suggest seasonal ingredients. Current season is "
  ++ month_name ++ py " and the country is Spain."
  ++ nl ++ py "    - Avoid using meat, cheese, eggs, and other dairy products."
  ++ nl
  ++ nl ++ py "Output formatting:    "
  ++ nl ++ py "    - Structure your responses clearly using Markdown for formatting"
  ++ nl ++ py "    - Begin every recipe response with the recipe name in Level 2 Heading (e.g., `## Amazing Blueberry Muffins`)"
  ++ nl ++ py "Think step by step".

(** ** Facts about [strip] *)












(** ** The reply path *)

Lemma seq_index_0 {A : Type} (l : list A) :
  seq_index l 0 =
  match l with
  | x :: _ => Return x
  | [] => Raise IndexError
  end.
Proof. destruct l; unfold seq_index; [done |]. cbn. done. Qed.

(** Case analysis along the path [choices], [0], [message], [content]. *)
Ltac crack_response :=
  repeat (simpl; rewrite ?seq_index_0;
          match goal with
          | |- context [match ?d !! ?k with _ => _ end] => destruct (d !! k)
          | |- context [match ?x with _ => _ end] => is_var x; destruct x
          end);
  simpl.

(** A response that has the reply path yields its text, stripped. *)
Lemma reply_content_text (v : pyval) (r : pystr) :
  reply_text v = Some r → reply_content v = Return (strip r).
Proof.
  unfold reply_text, reply_content, field, getitem, call_strip.
  crack_response; try done; by intros [= ->].
Qed.

(** A response that lacks the reply path raises a lookup, type or attribute
    error. *)
Lemma reply_content_no_text (v : pyval) :
  reply_text v = None →
  ∃ e, reply_content v = Raise e ∧ malformed_response_error e = true.
Proof.
  unfold reply_text, reply_content, field, getitem, call_strip.
  crack_response; try done; intros _; eauto.
Qed.

(** What [reply_content] returns is the stripped text of the reply path. *)
Lemma reply_content_Return (v : pyval) (s : pystr) :
  reply_content v = Return s → ∃ r, reply_text v = Some r ∧ s = strip r.
Proof.
  destruct (reply_text v) as [r|] eqn:Hr.
  - rewrite (reply_content_text v r Hr). intros [= <-]. eauto.
  - destruct (reply_content_no_text v Hr) as [e [-> _]]. done.
Qed.

(** ** Running the primitives *)

Lemma bind_Return {A B : Type} (m : M A) (f : A → M B) (w w' : world) (a : A) :
  m w = (Return a, w') → (m ≫= f) w = f a w'.
Proof. intros H. unfold mbind, M_bind. by rewrite H. Qed.

Lemma bind_Raise {A B : Type} (m : M A) (f : A → M B) (w w' : world) (e : exn) :
  m w = (Raise e, w') → (m ≫= f) w = (Raise e, w').
Proof. intros H. unfold mbind, M_bind. by rewrite H. Qed.

Lemma read_list_run (l : loc) (w : world) (xs : list message) :
  heap w !! l = Some xs → read_list l w = (Return xs, w).
Proof. intros H. unfold read_list. by rewrite H. Qed.

Lemma fresh_loc_None (w : world) : heap w !! fresh (dom (heap w)) = None.
Proof. apply not_elem_of_dom, is_fresh. Qed.

Lemma allocated_preserved (xs : list message) (w : world) :
  heap_preserved w (allocated xs w).
Proof.
  intros l ys H. simpl. rewrite lookup_insert_ne; [done |].
  intros <-. by rewrite fresh_loc_None in H.
Qed.

Lemma allocated_lookup (xs : list message) (w : world) :
  heap (allocated xs w) !! fresh (dom (heap w)) = Some xs.
Proof. simpl. apply lookup_insert_eq. Qed.

Lemma heap_preserved_refl (w : world) : heap_preserved w w.
Proof. by intros l xs H. Qed.

Lemma heap_preserved_trans (w1 w2 w3 : world) :
  heap_preserved w1 w2 → heap_preserved w2 w3 → heap_preserved w1 w3.
Proof. intros H12 H23 l xs H. by apply H23, H12. Qed.

Lemma list_add_run (a b : loc) (w : world) (xs ys : list message) :
  heap w !! a = Some xs → heap w !! b = Some ys →
  list_add a b w = (Return (fresh (dom (heap w))), allocated (xs ++ ys) w).
Proof.
  intros Ha Hb. unfold list_add.
  rewrite (bind_Return _ _ w w xs) by by apply read_list_run.
  rewrite (bind_Return _ _ w w ys) by by apply read_list_run.
  done.
Qed.

(** The test on the history reads the list and nothing else. *)
Lemma needs_system_prompt_run (l : loc) (w : world) (h : list message) :
  heap w !! l = Some h →
  needs_system_prompt l w =
  (match h with
   | [] => Return true
   | m :: _ =>
       match m !! py "role" with
       | Some r => Return (bool_decide (r ≠ py "system"))
       | None => Raise (KeyError (SKey (py "role")))
       end
   end, w).
Proof.
  intros H. unfold needs_system_prompt, list_not, list_getitem.
  rewrite (bind_Return _ _ w w (bool_decide (h = []))).
  2: { by rewrite (bind_Return _ _ w w h) by by apply read_list_run. }
  destruct h as [|m t]; [done |].
  rewrite bool_decide_eq_false_2 by done.
  rewrite (bind_Return _ _ w w m).
  2: { rewrite (bind_Return _ _ w w (m :: t)) by by apply read_list_run.
       unfold lift. by rewrite seq_index_0. }
  unfold message_getitem, lift.
  destruct (m !! py "role") as [r|]; done.
Qed.

(** ** Running [get_agent_response] *)

Section Runs.

Variable completion : list request → request → result pyval.
Variable g : globals.

(** The function from the [print] on, with [current_messages] bound. *)
Lemma after_branch_run (c : loc) (w : world) (current : list message) :
  heap w !! c = Some current →
  reaches_provider completion g current w
    ((_ ← print (py "Using model: " ++ MODEL_NAME g);
      completion_value ← litellm_completion completion (MODEL_NAME g) c;
      assistant_reply_content ← lift (reply_content completion_value);
      reply ← alloc_list [mk_message (py "assistant") assistant_reply_content];
      list_add c reply) w).
Proof.
  intros Hc. unfold reaches_provider.
  set (rq := {| req_model := MODEL_NAME g; req_messages := current |}).
  set (w1 := {| heap := heap w; requests := requests w;
                stdout := stdout w ++ [py "Using model: " ++ MODEL_NAME g] |}).
  set (w2 := {| heap := heap w; requests := requests w ++ [rq];
                stdout := stdout w1 |}).
  rewrite (bind_Return _ _ w w1 tt) by done.
  assert (Hsend : litellm_completion completion (MODEL_NAME g) c w1
                  = (completion (requests w) rq, w2)).
  { unfold litellm_completion.
    by rewrite (bind_Return _ _ w1 w1 current) by by apply read_list_run. }
  destruct (completion (requests w) rq) as [v|e].
  2: { rewrite (bind_Raise _ _ w1 w2 e) by done.
       split_and!; [by intros ??? | done..]. }
  rewrite (bind_Return _ _ w1 w2 v) by done.
  destruct (reply_content v) as [s|e].
  2: { rewrite (bind_Raise _ _ w2 w2 e) by done.
       split_and!; [by intros ??? | done..]. }
  rewrite (bind_Return _ _ w2 w2 s) by done.
  set (reply := [mk_message (py "assistant") s]).
  rewrite (bind_Return _ _ w2 (allocated reply w2) (fresh (dom (heap w2))))
    by done.
  rewrite (list_add_run c _ _ current reply).
  2: { by apply allocated_preserved. }
  2: { apply allocated_lookup. }
  set (w3 := allocated reply w2).
  assert (H23 : heap_preserved w2 w3) by apply allocated_preserved.
  assert (H34 : heap_preserved w3 (allocated (current ++ reply) w3))
    by apply allocated_preserved.
  split_and!; try done.
  - intros l xs H. by apply H34, H23.
  - exists (fresh (dom (heap w3))). split_and!; [done | |].
    + destruct (heap w !! fresh (dom (heap w3))) as [xs|] eqn:Hl; [| done].
      apply (H23 _ xs) in Hl. by rewrite fresh_loc_None in Hl.
    + apply allocated_lookup.
Qed.

(** A run on a history that needs the system message. *)
Lemma get_agent_response_prepends (l : loc) (w : world) (h : list message) :
  heap w !! l = Some h →
  needs_system_prompt l w = (Return true, w) →
  reaches_provider completion g (system_message g :: h) w
    (get_agent_response completion g l w).
Proof.
  intros Hl Hn. unfold get_agent_response.
  rewrite (bind_Return _ _ w w true) by done.
  set (w1 := allocated [system_message g] w).
  set (w2 := allocated (system_message g :: h) w1).
  assert (H01 : heap_preserved w w1) by apply allocated_preserved.
  assert (H12 : heap_preserved w1 w2) by apply allocated_preserved.
  rewrite (bind_Return _ _ w w2 (fresh (dom (heap w1)))).
  2: { rewrite (bind_Return _ _ w w1 (fresh (dom (heap w)))) by done.
       apply (list_add_run _ _ _ [system_message g] h);
         [apply allocated_lookup | by apply H01]. }
  destruct (after_branch_run (fresh (dom (heap w1))) w2 (system_message g :: h))
    as (Hp & Hr & Hs & Ho); [apply allocated_lookup |].
  unfold reaches_provider. split_and!; try done.
  - intros k xs H. by apply Hp, H12, H01.
  - change (requests w2) with (requests w) in Ho.
    destruct (completion _ _) as [v|e]; [| done].
    destruct (reply_content v) as [s|e]; [| done].
    destruct Ho as (l' & Ho & Hnew & Hres). exists l'. split_and!; try done.
    destruct (heap w !! l') as [xs|] eqn:Hk; [| done].
    apply H01, H12 in Hk. by rewrite Hk in Hnew.
Qed.

(** A run on a history that starts with a system message. *)
Lemma get_agent_response_keeps (l : loc) (w : world) (h : list message) :
  heap w !! l = Some h →
  needs_system_prompt l w = (Return false, w) →
  reaches_provider completion g h w (get_agent_response completion g l w).
Proof.
  intros Hl Hn. unfold get_agent_response.
  rewrite (bind_Return _ _ w w false) by done.
  rewrite (bind_Return _ _ w w l) by done.
  by apply after_branch_run.
Qed.

(** A run on a history whose first message has no role. *)
Lemma get_agent_response_raises (l : loc) (w : world) (e : exn) :
  needs_system_prompt l w = (Raise e, w) →
  get_agent_response completion g l w = (Raise e, w).
Proof.
  intros Hn. unfold get_agent_response. by apply bind_Raise.
Qed.

End Runs.

(** ** The two shapes of a history *)

Lemma well_formed_cases (h : list message) :
  well_formed h → lacks_system h ∨ starts_with_system h.
Proof.
  intros [-> | [r Hr]]; [by left; left |].
  destruct (decide (r = py "system")) as [-> | Hne].
  - by right.
  - left. right. eauto.
Qed.

Lemma lacks_system_not_starts (h : list message) :
  lacks_system h → ¬ starts_with_system h.
Proof.
  unfold starts_with_system. intros [-> | (r & Hr & Hne)] Hs.
  - done.
  - rewrite Hr in Hs. by injection Hs.
Qed.

Section Shapes.

Variable completion : list request → request → result pyval.
Variable g : globals.

Lemma needs_system_prompt_lacks (l : loc) (w : world) (h : list message) :
  heap w !! l = Some h → lacks_system h →
  needs_system_prompt l w = (Return true, w).
Proof.
  intros Hl Hh. rewrite (needs_system_prompt_run l w h Hl).
  destruct Hh as [-> | (r & Hr & Hne)]; [done |].
  destruct h as [|m t]; [done |].
  change (m !! py "role" = Some r) in Hr. rewrite Hr.
  by rewrite bool_decide_eq_true_2.
Qed.

Lemma needs_system_prompt_starts (l : loc) (w : world) (h : list message) :
  heap w !! l = Some h → starts_with_system h →
  needs_system_prompt l w = (Return false, w).
Proof.
  intros Hl Hh. rewrite (needs_system_prompt_run l w h Hl).
  destruct h as [|m t]; [done |].
  change (m !! py "role" = Some (py "system")) in Hh. rewrite Hh.
  rewrite bool_decide_eq_false_2; [done |]. by intros Hne.
Qed.

Lemma run_lacks (l : loc) (w : world) (h : list message) :
  heap w !! l = Some h → lacks_system h →
  reaches_provider completion g (system_message g :: h) w
    (get_agent_response completion g l w).
Proof.
  intros Hl Hh. apply get_agent_response_prepends; [done |].
  by apply (needs_system_prompt_lacks l w h).
Qed.

Lemma run_starts (l : loc) (w : world) (h : list message) :
  heap w !! l = Some h → starts_with_system h →
  reaches_provider completion g h w (get_agent_response completion g l w).
Proof.
  intros Hl Hh. apply get_agent_response_keeps; [done |].
  by apply (needs_system_prompt_starts l w h).
Qed.

(** Every run on a well-formed history reaches the provider, with a
    working history that ends in the caller's history. *)
Lemma run_well_formed (l : loc) (w : world) (h : list message) :
  heap w !! l = Some h → well_formed h →
  ∃ working,
    reaches_provider completion g working w
      (get_agent_response completion g l w)
    ∧ (working = system_message g :: h ∨ working = h).
Proof.
  intros Hl Hwf. destruct (well_formed_cases h Hwf) as [Hh | Hh].
  - exists (system_message g :: h). split; [by apply run_lacks | by left].
  - exists h. split; [by apply run_starts | by right].
Qed.

(** Every run either raises before anything is done, or reaches the
    provider. *)
Lemma run_cases (l : loc) (w : world) :
  (∃ e, get_agent_response completion g l w = (Raise e, w))
  ∨ (∃ cur, reaches_provider completion g cur w
              (get_agent_response completion g l w)).
Proof.
  destruct (heap w !! l) as [h|] eqn:Hl.
  - pose proof (needs_system_prompt_run l w h Hl) as Hn.
    destruct h as [|m t].
    + right. eexists. by apply (get_agent_response_prepends _ _ _ _ []).
    + destruct (m !! py "role") as [r|] eqn:Hr.
      * destruct (bool_decide (r ≠ py "system")); right; eexists.
        -- by eapply get_agent_response_prepends.
        -- by eapply get_agent_response_keeps.
      * left. eexists. by apply get_agent_response_raises.
  - left. exists SystemError. apply get_agent_response_raises.
    unfold needs_system_prompt, list_not.
    apply bind_Raise, bind_Raise. unfold read_list. by rewrite Hl.
Qed.

(** Every run leaves the list objects it found as they were. *)
Lemma run_heap_preserved (l : loc) (w : world) :
  heap_preserved w (get_agent_response completion g l w).2.
Proof.
  destruct (run_cases l w) as [[e ->] | [cur Hreach]].
  - apply heap_preserved_refl.
  - by destruct Hreach.
Qed.

(** A location that a run returns names a list object made by the run. *)
Lemma run_returns_new (l l' : loc) (w : world) :
  (get_agent_response completion g l w).1 = Return l' →
  heap w !! l' = None.
Proof.
  destruct (run_cases l w) as [[e ->] | [cur (_ & _ & _ & Ho)]]; [done |].
  intros Hret.
  destruct (completion _ _) as [v|e]; [| congruence].
  destruct (reply_content v) as [s|e]; [| congruence].
  destruct Ho as (k & Hk & Hnew & _). congruence.
Qed.

(** A run sends at most one request, and sends it with [MODEL_NAME]. *)
Lemma run_requests (l : loc) (w : world) :
  ∃ sent,
    requests (get_agent_response completion g l w).2 = requests w ++ sent
    ∧ (length sent ≤ 1)%nat
    ∧ Forall (λ rq, req_model rq = MODEL_NAME g) sent.
Proof.
  destruct (run_cases l w) as [[e ->] | [cur (_ & Hr & _)]].
  - exists []. simpl. rewrite app_nil_r. split_and!; [done | lia | done].
  - eexists. split_and!; [exact Hr | done |]. by constructor.
Qed.

(** What the outcome is, once the provider's answer is known. *)
Lemma reaches_provider_reply
    (cur : list message) (w : world) (out : result loc * world)
    (v : pyval) (r : pystr) :
  reaches_provider completion g cur w out →
  completion (requests w)
    {| req_model := MODEL_NAME g; req_messages := cur |} = Return v →
  reply_text v = Some r →
  ∃ l', out.1 = Return l'
        ∧ heap w !! l' = None
        ∧ heap out.2 !! l'
          = Some (cur ++ [mk_message (py "assistant") (strip r)]).
Proof.
  intros (_ & _ & _ & Ho) Hv Hr. rewrite Hv in Ho.
  by rewrite (reply_content_text v r Hr) in Ho.
Qed.

Lemma reaches_provider_raise
    (cur : list message) (w : world) (out : result loc * world) (e : exn) :
  reaches_provider completion g cur w out →
  completion (requests w)
    {| req_model := MODEL_NAME g; req_messages := cur |} = Raise e →
  out.1 = Raise e.
Proof. intros (_ & _ & _ & Ho) He. by rewrite He in Ho. Qed.

Lemma reaches_provider_malformed
    (cur : list message) (w : world) (out : result loc * world) (v : pyval) :
  reaches_provider completion g cur w out →
  completion (requests w)
    {| req_model := MODEL_NAME g; req_messages := cur |} = Return v →
  reply_text v = None →
  ∃ e, out.1 = Raise e ∧ malformed_response_error e = true.
Proof.
  intros (_ & _ & _ & Ho) Hv Hr. rewrite Hv in Ho.
  destruct (reply_content_no_text v Hr) as (e & He & Hm).
  rewrite He in Ho. eauto.
Qed.

Lemma reaches_provider_returned
    (cur : list message) (w : world) (out : result loc * world) (l' : loc) :
  reaches_provider completion g cur w out →
  out.1 = Return l' →
  ∃ s, heap out.2 !! l' = Some (cur ++ [mk_message (py "assistant") s]).
Proof.
  intros (_ & _ & _ & Ho) Hret.
  destruct (completion _ _) as [v|e]; [| congruence].
  destruct (reply_content v) as [s|e]; [| congruence].
  destruct Ho as (k & Hk & _ & Hres). exists s. congruence.
Qed.

Lemma reaches_provider_sent
    (cur : list message) (w : world) (out : result loc * world) :
  reaches_provider completion g cur w out →
  requests out.2
  = requests w ++ [{| req_model := MODEL_NAME g; req_messages := cur |}].
Proof. by intros (_ & Hr & _). Qed.

End Shapes.

(** ** Facts about messages *)

Lemma mk_message_role (role content : pystr) :
  mk_message role content !! py "role" = Some role.
Proof. apply lookup_insert_eq. Qed.

Lemma mk_message_content (role content : pystr) :
  mk_message role content !! py "content" = Some content.
Proof.
  unfold mk_message. rewrite lookup_insert_ne by (by vm_compute).
  apply lookup_insert_eq.
Qed.

Lemma count_system_app (h k : list message) :
  count_system (h ++ k) = (count_system h + count_system k)%nat.
Proof. unfold count_system. by rewrite List.filter_app, length_app. Qed.

Lemma count_system_assistant (s : pystr) :
  count_system [mk_message (py "assistant") s] = 0%nat.
Proof.
  unfold count_system. simpl. rewrite mk_message_role.
  by rewrite bool_decide_eq_false_2 by (by vm_compute).
Qed.

(** ** Concrete runs *)

(** The scenario of an empty history: the result is the system message and
    the stripped reply. *)
Example respond_empty_history :
  let out := get_agent_response (answering (response_of soup_reply))
               may_globals 1%positive (world_of []) in
  ∃ l', out.1 = Return l'
        ∧ heap out.2 !! l'
          = Some [system_message may_globals;
                  mk_message (py "assistant")
                    (py "## Soup" ++ nl ++ py "Ingredients: tomato")].
Proof. exists 5%positive. split; vm_compute; reflexivity. Qed.

(** The scenario of one user message: the result has three messages. *)
Example respond_user_hi :
  let out := get_agent_response (answering (response_of soup_reply))
               may_globals 1%positive (world_of [user_hi]) in
  ∃ l' res, out.1 = Return l'
            ∧ heap out.2 !! l' = Some res
            ∧ length res = 3%nat
            ∧ res !! 1%nat = Some user_hi.
Proof.
  exists 5%positive,
    [system_message may_globals; user_hi;
     mk_message (py "assistant") (strip soup_reply)].
  split_and!; vm_compute; reflexivity.
Qed.

(** A first message without a role makes the test on the history raise. *)
Example respond_no_role :
  get_agent_response (answering (response_of soup_reply))
    may_globals 1%positive (world_of [{[ py "content" := py "hi" ]}])
  = (Raise (KeyError (SKey (py "role"))),
     world_of [{[ py "content" := py "hi" ]}]).
Proof. vm_compute. reflexivity. Qed.

(** ** The claims *)



(** C2.  When the history is empty or its first role is not [system], the
    request sent to the provider holds the system message, of role [system]
    and content [SYSTEM_PROMPT], followed by the history, and a returned
    history starts with the same messages.  When the first role is [system],
    the request holds the history as it is, and a returned history starts
    with it. *)
Theorem working_history_shape
    (completion : list request → request → result pyval) (g : globals)
    (l : loc) (w : world) (h : list message) :
  heap w !! l = Some h →
  let out := get_agent_response completion g l w in
  let sent working :=
    requests out.2
    = requests w ++ [{| req_model := MODEL_NAME g; req_messages := working |}]
    ∧ ∀ l', out.1 = Return l' →
            ∃ reply, heap out.2 !! l' = Some (working ++ [reply]) in
  system_message g !! py "role" = Some (py "system")
  ∧ system_message g !! py "content" = Some (SYSTEM_PROMPT g)
  ∧ (lacks_system h → sent ([system_message g] ++ h))
  ∧ (starts_with_system h → sent h).
Proof.
  intros Hl out sent.
  split_and!.
  - exact (mk_message_role _ _).
  - exact (mk_message_content _ _).
  - intros Hh. pose proof (run_lacks completion g l w h Hl Hh) as Hreach.
    split; [exact (reaches_provider_sent completion g _ w out Hreach) |].
    intros l' Hret.
    destruct (reaches_provider_returned completion g _ w out l' Hreach Hret)
      as [s Hs].
    by exists (mk_message (py "assistant") s).
  - intros Hh. pose proof (run_starts completion g l w h Hl Hh) as Hreach.
    split; [exact (reaches_provider_sent completion g _ w out Hreach) |].
    intros l' Hret.
    destruct (reaches_provider_returned completion g _ w out l' Hreach Hret)
      as [s Hs].
    by exists (mk_message (py "assistant") s).
Qed.

Lemma working_history_shape_witness :
  (heap (world_of [user_hi]) !! 1%positive = Some [user_hi]
   ∧ lacks_system [user_hi]
   ∧ requests (get_agent_response (answering (response_of soup_reply))
                 may_globals 1%positive (world_of [user_hi])).2
     = [{| req_model := MODEL_NAME may_globals;
           req_messages := [system_message may_globals; user_hi] |}])
  ∧ (heap (world_of [be_brief; user_hi]) !! 1%positive
     = Some [be_brief; user_hi]
     ∧ starts_with_system [be_brief; user_hi]
     ∧ requests (get_agent_response (answering (response_of soup_reply))
                   may_globals 1%positive (world_of [be_brief; user_hi])).2
       = [{| req_model := MODEL_NAME may_globals;
             req_messages := [be_brief; user_hi] |}]).
Proof.
  split.
  - assert (Hl : heap (world_of [user_hi]) !! 1%positive = Some [user_hi])
      by reflexivity.
    assert (Hh : lacks_system [user_hi]).
    { right. exists (py "user"). split; [reflexivity | by vm_compute]. }
    split_and!; [done | done |].
    destruct (working_history_shape
                (answering (response_of soup_reply)) may_globals
                1%positive (world_of [user_hi]) [user_hi] Hl)
      as (_ & _ & Hlacks & _).
    by destruct (Hlacks Hh) as [Hsent _].
  - assert (Hl : heap (world_of [be_brief; user_hi]) !! 1%positive
                 = Some [be_brief; user_hi]) by reflexivity.
    assert (Hh : starts_with_system [be_brief; user_hi]) by reflexivity.
    split_and!; [done | done |].
    destruct (working_history_shape
                (answering (response_of soup_reply)) may_globals
                1%positive (world_of [be_brief; user_hi]) [be_brief; user_hi] Hl)
      as (_ & _ & _ & Hstarts).
    by destruct (Hstarts Hh) as [Hsent _].
Defined.

(** C3.  On a well-formed history the run sends exactly one request, with
    the model [MODEL_NAME]; when the provider raises [e] on it, the run
    raises that same [e] and returns no list. Nothing is sent a second
    time, and no other model is tried. *)
Theorem provider_error_propagates
    (completion : list request → request → result pyval) (g : globals)
    (l : loc) (w : world) (h : list message) :
  heap w !! l = Some h →
  well_formed h →
  let out := get_agent_response completion g l w in
  ∃ rq,
    requests out.2 = requests w ++ [rq]
    ∧ req_model rq = MODEL_NAME g
    ∧ ∀ e, completion (requests w) rq = Raise e →
           out.1 = Raise e ∧ ∀ l', out.1 ≠ Return l'.
Proof.
  intros Hl Hwf out.
  destruct (run_well_formed completion g l w h Hl Hwf) as (working & Hreach & _).
  exists {| req_model := MODEL_NAME g; req_messages := working |}.
  split_and!.
  - exact (reaches_provider_sent completion g working w out Hreach).
  - done.
  - intros e He.
    pose proof (reaches_provider_raise completion g working w out e Hreach He)
      as Hout.
    split; [done |]. intros l'. by rewrite Hout.
Qed.

Lemma provider_error_propagates_witness :
  heap (world_of [user_hi]) !! 1%positive = Some [user_hi]
  ∧ well_formed [user_hi]
  ∧ (get_agent_response (failing rate_limit) may_globals
       1%positive (world_of [user_hi])).1 = Raise rate_limit.
Proof.
  assert (Hl : heap (world_of [user_hi]) !! 1%positive = Some [user_hi])
    by reflexivity.
  assert (Hwf : well_formed [user_hi])
    by (right; exists (py "user"); reflexivity).
  split_and!; [done | done |].
  destruct (provider_error_propagates (failing rate_limit) may_globals
              1%positive (world_of [user_hi]) [user_hi] Hl Hwf)
    as (rq & _ & _ & Hraise).
  by destruct (Hraise rate_limit eq_refl).
Defined.

(** C4, as the claim words it, fails: a history that starts with a system
    message and holds a second one comes back with both, so two system
    messages remain, not exactly one. *)
Lemma second_system_message_remains :
  two_system_messages ≠ []
  ∧ starts_with_system two_system_messages
  ∧ (get_agent_response (answering (response_of soup_reply)) may_globals
       1%positive (world_of two_system_messages)).1 = Return 3%positive
  ∧ heap (get_agent_response (answering (response_of soup_reply)) may_globals
            1%positive (world_of two_system_messages)).2 !! 3%positive
    = Some [be_brief; in_verse;
            mk_message (py "assistant") (strip soup_reply)]
  ∧ count_system [be_brief; in_verse;
                  mk_message (py "assistant") (strip soup_reply)] = 2%nat
  ∧ count_system [be_brief; in_verse;
                  mk_message (py "assistant") (strip soup_reply)] ≠ 1%nat.
Proof. split_and!; try done; vm_compute; (reflexivity || discriminate). Qed.

(** C4, amended.  On a history that starts with a system message the run adds
    no system message: the request holds the history as it is, and when the
    provider answers, the returned history starts with the caller's first
    message and holds as many system messages as the caller's history, so
    exactly one when the caller's history holds none after the first. *)
Theorem system_message_not_added
    (completion : list request → request → result pyval) (g : globals)
    (l : loc) (w : world) (h : list message) (v : pyval) (r : pystr) :
  heap w !! l = Some h →
  starts_with_system h →
  completion (requests w)
    {| req_model := MODEL_NAME g; req_messages := h |} = Return v →
  reply_text v = Some r →
  let out := get_agent_response completion g l w in
  requests out.2
  = requests w ++ [{| req_model := MODEL_NAME g; req_messages := h |}]
  ∧ ∃ l' res,
      out.1 = Return l'
      ∧ heap out.2 !! l' = Some res
      ∧ head res = head h
      ∧ starts_with_system res
      ∧ count_system res = count_system h
      ∧ (count_system (tail h) = 0%nat → count_system res = 1%nat).
Proof.
  intros Hl Hh Hv Hr out.
  pose proof (run_starts completion g l w h Hl Hh) as Hreach.
  split; [exact (reaches_provider_sent completion g h w out Hreach) |].
  destruct (reaches_provider_reply completion g h w out v r Hreach Hv Hr)
    as (l' & Hret & _ & Hres).
  exists l', (h ++ [mk_message (py "assistant") (strip r)]).
  assert (Hcount : count_system (h ++ [mk_message (py "assistant") (strip r)])
                   = count_system h).
  { rewrite count_system_app, count_system_assistant. lia. }
  destruct h as [|m t]; [done |].
  split_and!; try done.
  intros Ht. rewrite Hcount.
  change (m !! py "role" = Some (py "system")) in Hh.
  change (count_system (m :: t))
    with (length (List.filter
                    (λ m : message,
                       bool_decide (m !! py "role" = Some (py "system")))
                    (m :: t))).
  simpl. rewrite bool_decide_eq_true_2 by done.
  simpl. f_equal. exact Ht.
Qed.

Lemma system_message_not_added_witness :
  heap (world_of [be_brief; user_hi]) !! 1%positive = Some [be_brief; user_hi]
  ∧ starts_with_system [be_brief; user_hi]
  ∧ reply_text (response_of soup_reply) = Some soup_reply
  ∧ ∃ l' res,
      (get_agent_response (answering (response_of soup_reply)) may_globals
         1%positive (world_of [be_brief; user_hi])).1 = Return l'
      ∧ heap (get_agent_response (answering (response_of soup_reply))
                may_globals 1%positive (world_of [be_brief; user_hi])).2 !! l'
        = Some res
      ∧ count_system res = 1%nat.
Proof.
  assert (Hl : heap (world_of [be_brief; user_hi]) !! 1%positive
               = Some [be_brief; user_hi]) by reflexivity.
  assert (Hh : starts_with_system [be_brief; user_hi]) by reflexivity.
  assert (Hr : reply_text (response_of soup_reply) = Some soup_reply)
    by reflexivity.
  split_and!; [done | done | done |].
  destruct (system_message_not_added
              (answering (response_of soup_reply)) may_globals
              1%positive (world_of [be_brief; user_hi]) [be_brief; user_hi]
              (response_of soup_reply) soup_reply Hl Hh eq_refl Hr)
    as (_ & l' & res & Hret & Hres & _ & _ & _ & Hone).
  exists l', res. split_and!; [done | done |].
  apply Hone. by vm_compute.
Defined.

(** C5.  On a well-formed history, when the provider answers the request
    with a response that lacks the reply path, the run raises a lookup, type
    or attribute error and returns no list: no empty content is made up. *)
Theorem malformed_response_raises
    (completion : list request → request → result pyval) (g : globals)
    (l : loc) (w : world) (h : list message) :
  heap w !! l = Some h →
  well_formed h →
  let out := get_agent_response completion g l w in
  ∃ working,
    (working = [system_message g] ++ h ∨ working = h)
    ∧ requests out.2
      = requests w ++ [{| req_model := MODEL_NAME g; req_messages := working |}]
    ∧ ∀ v,
        completion (requests w)
          {| req_model := MODEL_NAME g; req_messages := working |} = Return v →
        reply_text v = None →
        ∃ e, out.1 = Raise e
             ∧ malformed_response_error e = true
             ∧ ∀ l', out.1 ≠ Return l'.
Proof.
  intros Hl Hwf out.
  destruct (run_well_formed completion g l w h Hl Hwf)
    as (working & Hreach & Hshape).
  exists working.
  split; [exact Hshape |].
  split; [exact (reaches_provider_sent completion g working w out Hreach) |].
  intros v Hv Hr.
  destruct (reaches_provider_malformed completion g working w out v
              Hreach Hv Hr) as (e & Hout & Hm).
  exists e. split_and!; [done | done |]. intros l'. by rewrite Hout.
Qed.

Lemma malformed_response_raises_witness :
  heap (world_of [user_hi]) !! 1%positive = Some [user_hi]
  ∧ well_formed [user_hi]
  ∧ reply_text no_choice = None
  ∧ ∃ e, (get_agent_response (answering no_choice) may_globals
            1%positive (world_of [user_hi])).1 = Raise e
         ∧ malformed_response_error e = true.
Proof.
  assert (Hl : heap (world_of [user_hi]) !! 1%positive = Some [user_hi])
    by reflexivity.
  assert (Hwf : well_formed [user_hi])
    by (right; exists (py "user"); reflexivity).
  assert (Hr : reply_text no_choice = None) by reflexivity.
  split_and!; [done | done | done |].
  destruct (malformed_response_raises (answering no_choice) may_globals
              1%positive (world_of [user_hi]) [user_hi] Hl Hwf)
    as (working & _ & _ & Hrun).
  destruct (Hrun no_choice eq_refl Hr) as (e & Hout & Hm & _).
  by exists e.
Defined.

(** The two malformed responses end in [IndexError] and [AttributeError]. *)
Example no_choice_raises :
  reply_content no_choice = Raise IndexError
  ∧ reply_content none_content = Raise (AttributeError (py "strip")).
Proof. split; vm_compute; reflexivity. Qed.

(** C6.  Whatever the run does, the caller's list object holds after the run
    the messages it held before, and a returned history is a list object
    that did not exist before the run, so it is not the caller's. *)
Theorem caller_history_not_mutated
    (completion : list request → request → result pyval) (g : globals)
    (l : loc) (w : world) (h : list message) :
  heap w !! l = Some h →
  let out := get_agent_response completion g l w in
  heap out.2 !! l = Some h
  ∧ ∀ l', out.1 = Return l' → l' ≠ l ∧ heap w !! l' = None.
Proof.
  intros Hl out. split.
  - by apply (run_heap_preserved completion g l w).
  - intros l' Hret.
    pose proof (run_returns_new completion g l l' w Hret) as Hnew.
    split; [| done]. intros ->. by rewrite Hl in Hnew.
Qed.

Lemma caller_history_not_mutated_witness :
  heap (world_of [be_brief; user_hi]) !! 1%positive = Some [be_brief; user_hi]
  ∧ heap (get_agent_response (answering (response_of soup_reply)) may_globals
            1%positive (world_of [be_brief; user_hi])).2 !! 1%positive
    = Some [be_brief; user_hi].
Proof.
  assert (Hl : heap (world_of [be_brief; user_hi]) !! 1%positive
               = Some [be_brief; user_hi]) by reflexivity.
  split; [done |].
  by destruct (caller_history_not_mutated
                 (answering (response_of soup_reply)) may_globals
                 1%positive (world_of [be_brief; user_hi]) [be_brief; user_hi]
                 Hl) as [Hkept _].
Defined.

(** C9.  On a history whose first message [m] has role [system], the request
    holds [m] first, and when the provider answers, the returned history
    holds [m] first, content included: [SYSTEM_PROMPT] does not take the
    place of the caller's content. *)
Theorem caller_system_message_kept
    (completion : list request → request → result pyval) (g : globals)
    (l : loc) (w : world) (m : message) (t : list message)
    (v : pyval) (r : pystr) :
  heap w !! l = Some (m :: t) →
  m !! py "role" = Some (py "system") →
  completion (requests w)
    {| req_model := MODEL_NAME g; req_messages := m :: t |} = Return v →
  reply_text v = Some r →
  let out := get_agent_response completion g l w in
  (∃ rq, requests out.2 = requests w ++ [rq]
         ∧ req_messages rq !! 0%nat = Some m)
  ∧ ∃ l' res,
      out.1 = Return l'
      ∧ heap out.2 !! l' = Some res
      ∧ res !! 0%nat = Some m
      ∧ res !! 0%nat ≫= (λ m' : message, m' !! py "content")
        = m !! py "content".
Proof.
  intros Hl Hm Hv Hr out.
  pose proof (run_starts completion g l w (m :: t) Hl Hm) as Hreach.
  split.
  - eexists. split; [exact (reaches_provider_sent completion g _ w out Hreach) |].
    done.
  - destruct (reaches_provider_reply completion g _ w out v r Hreach Hv Hr)
      as (l' & Hret & _ & Hres).
    exists l', ((m :: t) ++ [mk_message (py "assistant") (strip r)]).
    split_and!; done.
Qed.

Lemma caller_system_message_kept_witness :
  heap (world_of [be_brief; user_hi]) !! 1%positive = Some [be_brief; user_hi]
  ∧ be_brief !! py "role" = Some (py "system")
  ∧ reply_text (response_of soup_reply) = Some soup_reply
  ∧ be_brief !! py "content" ≠ Some (SYSTEM_PROMPT may_globals)
  ∧ ∃ l' res,
      (get_agent_response (answering (response_of soup_reply)) may_globals
         1%positive (world_of [be_brief; user_hi])).1 = Return l'
      ∧ heap (get_agent_response (answering (response_of soup_reply))
                may_globals 1%positive (world_of [be_brief; user_hi])).2 !! l'
        = Some res
      ∧ res !! 0%nat ≫= (λ m' : message, m' !! py "content")
        = Some (py "Be brief.").
Proof.
  assert (Hl : heap (world_of [be_brief; user_hi]) !! 1%positive
               = Some [be_brief; user_hi]) by reflexivity.
  assert (Hm : be_brief !! py "role" = Some (py "system")) by reflexivity.
  assert (Hr : reply_text (response_of soup_reply) = Some soup_reply)
    by reflexivity.
  split_and!; [done | done | done | by vm_compute |].
  destruct (caller_system_message_kept
              (answering (response_of soup_reply)) may_globals
              1%positive (world_of [be_brief; user_hi]) be_brief [user_hi]
              (response_of soup_reply) soup_reply Hl Hm eq_refl Hr)
    as (_ & l' & res & Hret & Hres & _ & Hcontent).
  exists l', res. split_and!; [done | done |].
  rewrite Hcontent. reflexivity.
Defined.





(** C8.  The model name of a process is the value of [MODEL_NAME] in the
    environment as it is once the [.env] file is loaded, and [gpt-4o-mini]
    when the variable is not set there.  A run never sends more than one
    request, and on a well-formed history it sends exactly one, whose model
    is this model name: the value of the variable when it is set, the
    default when it is not. *)
Theorem model_name_from_environment
    (dotenv env : environ) (now : datetime)
    (completion : list request → request → result pyval)
    (l : loc) (w : world) :
  let g := import_module dotenv env now in
  let os_environ := load_dotenv_override dotenv env in
  let out := get_agent_response completion g l w in
  match os_environ !! py "MODEL_NAME" with
  | Some v => MODEL_NAME g = v
  | None => MODEL_NAME g = py "gpt-4o-mini"
  end
  ∧ (∃ sent,
       requests out.2 = requests w ++ sent
       ∧ (length sent ≤ 1)%nat
       ∧ Forall (λ rq, req_model rq = MODEL_NAME g) sent)
  ∧ ∀ h,
      heap w !! l = Some h →
      well_formed h →
      ∃ rq,
        requests out.2 = requests w ++ [rq]
        ∧ (req_messages rq = [system_message g] ++ h ∨ req_messages rq = h)
        ∧ req_model rq = MODEL_NAME g
        ∧ req_model rq
          = match os_environ !! py "MODEL_NAME" with
            | Some v => v
            | None => py "gpt-4o-mini"
            end.
Proof.
  intros g os_environ out.
  assert (Hname : MODEL_NAME g
                  = match os_environ !! py "MODEL_NAME" with
                    | Some v => v
                    | None => py "gpt-4o-mini"
                    end) by reflexivity.
  split_and!.
  - rewrite Hname. by destruct (os_environ !! py "MODEL_NAME").
  - apply run_requests.
  - intros h Hl Hwf.
    destruct (run_well_formed completion g l w h Hl Hwf)
      as (working & Hreach & Hshape).
    exists {| req_model := MODEL_NAME g; req_messages := working |}.
    split_and!.
    + exact (reaches_provider_sent completion g working w out Hreach).
    + exact Hshape.
    + reflexivity.
    + exact Hname.
Qed.

Lemma model_name_from_environment_witness :
  heap (world_of [user_hi]) !! 1%positive = Some [user_hi]
  ∧ well_formed [user_hi]
  ∧ (∃ rq,
       requests
         (get_agent_response (answering (response_of soup_reply))
            (import_module ∅ {[ py "MODEL_NAME" := py "openai/gpt-4o" ]}
               may_day)
            1%positive (world_of [user_hi])).2 = [rq]
       ∧ req_model rq = py "openai/gpt-4o")
  ∧ (∃ rq,
       requests
         (get_agent_response (failing rate_limit) (import_module ∅ ∅ may_day)
            1%positive (world_of [user_hi])).2 = [rq]
       ∧ req_model rq = py "gpt-4o-mini").
Proof.
  assert (Hl : heap (world_of [user_hi]) !! 1%positive = Some [user_hi])
    by reflexivity.
  assert (Hwf : well_formed [user_hi])
    by (right; exists (py "user"); reflexivity).
  split_and!; [done | done | |].
  - destruct (model_name_from_environment
                ∅ {[ py "MODEL_NAME" := py "openai/gpt-4o" ]} may_day
                (answering (response_of soup_reply)) 1%positive
                (world_of [user_hi])) as (_ & _ & Hsent).
    destruct (Hsent [user_hi] Hl Hwf) as (rq & Hrq & _ & _ & Hmodel).
    exists rq. split; [exact Hrq | exact Hmodel].
  - destruct (model_name_from_environment
                ∅ ∅ may_day (failing rate_limit) 1%positive
                (world_of [user_hi])) as (_ & _ & Hsent).
    destruct (Hsent [user_hi] Hl Hwf) as (rq & Hrq & _ & _ & Hmodel).
    exists rq. split; [exact Hrq | exact Hmodel].
Defined.

(** The [.env] file comes first, the process environment second, the
    default last. *)
Lemma model_name_sources (dotenv env : environ) (now : datetime) :
  MODEL_NAME (import_module dotenv env now)
  = match dotenv !! py "MODEL_NAME" with
    | Some v => v
    | None =>
        match env !! py "MODEL_NAME" with
        | Some v => v
        | None => py "gpt-4o-mini"
        end
    end.
Proof.
  unfold import_module, environ_get, load_dotenv_override.
  cbn [MODEL_NAME]. rewrite lookup_union.
  destruct (dotenv !! py "MODEL_NAME") as [v|], (env !! py "MODEL_NAME");
    done.
Qed.

(** A run in a process whose environment names a model asks for it. *)
Example model_name_set :
  let g := import_module ∅ {[ py "MODEL_NAME" := py "openai/gpt-4o" ]}
             may_day in
  MODEL_NAME g = py "openai/gpt-4o"
  ∧ List.map req_model
      (requests (get_agent_response (answering (response_of soup_reply)) g
                   1%positive (world_of [user_hi])).2)
    = [py "openai/gpt-4o"].
Proof. split; vm_compute; reflexivity. Qed.

(** ** Further properties of [get_agent_response] *)

(** X1.  A first message without the key [role] makes the test on the
    history raise [KeyError('role')] before anything else is done: nothing is
    printed, no request is sent, no list object is built. *)
Theorem missing_role_raises_KeyError
    (completion : list request → request → result pyval) (g : globals)
    (l : loc) (w : world) (m : message) (t : list message) :
  heap w !! l = Some (m :: t) →
  m !! py "role" = None →
  get_agent_response completion g l w
  = (Raise (KeyError (SKey (py "role"))), w).
Proof.
  intros Hl Hm. apply get_agent_response_raises.
  rewrite (needs_system_prompt_run l w (m :: t) Hl). by rewrite Hm.
Qed.

Lemma missing_role_raises_KeyError_witness :
  heap (world_of [{[ py "content" := py "hi" ]}; user_hi]) !! 1%positive
  = Some [{[ py "content" := py "hi" ]}; user_hi]
  ∧ ({[ py "content" := py "hi" ]} : message) !! py "role" = None
  ∧ get_agent_response (answering (response_of soup_reply)) may_globals
      1%positive (world_of [{[ py "content" := py "hi" ]}; user_hi])
    = (Raise (KeyError (SKey (py "role"))),
       world_of [{[ py "content" := py "hi" ]}; user_hi]).
Proof.
  assert (Hl : heap (world_of [{[ py "content" := py "hi" ]}; user_hi])
               !! 1%positive
               = Some [{[ py "content" := py "hi" ]}; user_hi])
    by reflexivity.
  assert (Hm : ({[ py "content" := py "hi" ]} : message) !! py "role" = None)
    by reflexivity.
  split_and!; [done | done |].
  exact (missing_role_raises_KeyError
           (answering (response_of soup_reply)) may_globals 1%positive
           (world_of [{[ py "content" := py "hi" ]}; user_hi])
           {[ py "content" := py "hi" ]} [user_hi] Hl Hm).
Defined.

(** X3.  A second turn on the history that a first turn returned: that
    history starts with a system message, so the second run sends it as it
    is, with no further system message, leaves it unchanged, and a history it
    returns is the first one followed by one more message. *)
Theorem second_turn_keeps_history
    (completion : list request → request → result pyval) (g : globals)
    (l l1 : loc) (w : world) (h : list message) :
  heap w !! l = Some h →
  well_formed h →
  let out1 := get_agent_response completion g l w in
  out1.1 = Return l1 →
  let out2 := get_agent_response completion g l1 out1.2 in
  ∃ res1,
    heap out1.2 !! l1 = Some res1
    ∧ starts_with_system res1
    ∧ requests out2.2
      = requests out1.2
        ++ [{| req_model := MODEL_NAME g; req_messages := res1 |}]
    ∧ heap out2.2 !! l1 = Some res1
    ∧ ∀ l2, out2.1 = Return l2 →
            ∃ reply, heap out2.2 !! l2 = Some (res1 ++ [reply]).
Proof.
  intros Hl Hwf out1 Hret1 out2.
  assert (Hturn : ∀ working,
             reaches_provider completion g working w out1 →
             first_role working = Some (py "system") →
             ∃ res1,
               heap out1.2 !! l1 = Some res1 ∧ starts_with_system res1).
  { intros working Hreach Hfirst.
    destruct (reaches_provider_returned completion g working w out1 l1
                Hreach Hret1) as [s Hres1].
    eexists. split; [exact Hres1 |].
    destruct working as [|m t]; [done |]. exact Hfirst. }
  assert (Hfirst : ∃ res1,
             heap out1.2 !! l1 = Some res1 ∧ starts_with_system res1).
  { destruct (well_formed_cases h Hwf) as [Hh | Hh].
    - apply (Hturn (system_message g :: h)); [by apply run_lacks |].
      exact (mk_message_role _ _).
    - apply (Hturn h); [by apply run_starts | exact Hh]. }
  destruct Hfirst as (res1 & Hres1 & Hstart).
  exists res1. split; [done |]. split; [done |].
  pose proof (run_starts completion g l1 out1.2 res1 Hres1 Hstart) as Hreach2.
  split_and!.
  - exact (reaches_provider_sent completion g res1 out1.2 out2 Hreach2).
  - by apply (run_heap_preserved completion g l1 out1.2).
  - intros l2 Hret2.
    destruct (reaches_provider_returned completion g res1 out1.2 out2 l2
                Hreach2 Hret2) as [s2 Hs2].
    by exists (mk_message (py "assistant") s2).
Qed.

Lemma second_turn_keeps_history_witness :
  heap (world_of [user_hi]) !! 1%positive = Some [user_hi]
  ∧ well_formed [user_hi]
  ∧ (get_agent_response (answering (response_of soup_reply)) may_globals
       1%positive (world_of [user_hi])).1 = Return 5%positive
  ∧ ∃ res1,
      starts_with_system res1
      ∧ requests
          (get_agent_response (answering (response_of soup_reply)) may_globals
             5%positive
             (get_agent_response (answering (response_of soup_reply))
                may_globals 1%positive (world_of [user_hi])).2).2
        = requests
            (get_agent_response (answering (response_of soup_reply))
               may_globals 1%positive (world_of [user_hi])).2
          ++ [{| req_model := MODEL_NAME may_globals;
                 req_messages := res1 |}].
Proof.
  assert (Hl : heap (world_of [user_hi]) !! 1%positive = Some [user_hi])
    by reflexivity.
  assert (Hwf : well_formed [user_hi])
    by (right; exists (py "user"); reflexivity).
  assert (Hret : (get_agent_response (answering (response_of soup_reply))
                    may_globals 1%positive (world_of [user_hi])).1
                 = Return 5%positive)
    by (vm_compute; reflexivity).
  split_and!; [done | done | done |].
  destruct (second_turn_keeps_history
              (answering (response_of soup_reply)) may_globals
              1%positive 5%positive (world_of [user_hi]) [user_hi]
              Hl Hwf Hret)
    as (res1 & _ & Hstart & Hsent & _).
  exists res1. split; [exact Hstart | exact Hsent].
Defined.

(** X4.  On a well-formed history the run sends one request, and it
    returns a history exactly when the provider answers that request with a
    response that has the reply path [choices], [0], [message], [content]
    down to a string. *)
Theorem returns_iff_reply_text
    (completion : list request → request → result pyval) (g : globals)
    (l : loc) (w : world) (h : list message) :
  heap w !! l = Some h →
  well_formed h →
  let out := get_agent_response completion g l w in
  ∃ working,
    (working = [system_message g] ++ h ∨ working = h)
    ∧ requests out.2
      = requests w ++ [{| req_model := MODEL_NAME g; req_messages := working |}]
    ∧ ((∃ l', out.1 = Return l')
       ↔ (∃ v r,
            completion (requests w)
              {| req_model := MODEL_NAME g; req_messages := working |}
            = Return v
            ∧ reply_text v = Some r)).
Proof.
  intros Hl Hwf out.
  destruct (run_well_formed completion g l w h Hl Hwf)
    as (working & Hreach & Hshape).
  exists working. split; [exact Hshape |].
  split; [exact (reaches_provider_sent completion g working w out Hreach) |].
  split.
  - intros [l' Hret]. destruct Hreach as (_ & _ & _ & Ho).
    unfold out in Hret.
    destruct (completion _ _) as [v|e]; [| by rewrite Hret in Ho].
    destruct (reply_content v) as [s|e] eqn:Hs; [| by rewrite Hret in Ho].
    destruct (reply_content_Return v s Hs) as (r & Hr & _).
    by exists v, r.
  - intros (v & r & Hv & Hr).
    destruct (reaches_provider_reply completion g working w out v r
                Hreach Hv Hr) as (l' & Hret & _).
    by exists l'.
Qed.

Lemma returns_iff_reply_text_witness :
  heap (world_of [user_hi]) !! 1%positive = Some [user_hi]
  ∧ well_formed [user_hi]
  ∧ ¬ ∃ l', (get_agent_response (answering none_content) may_globals
               1%positive (world_of [user_hi])).1 = Return l'.
Proof.
  assert (Hl : heap (world_of [user_hi]) !! 1%positive = Some [user_hi])
    by reflexivity.
  assert (Hwf : well_formed [user_hi])
    by (right; exists (py "user"); reflexivity).
  split_and!; [done | done |].
  destruct (returns_iff_reply_text (answering none_content) may_globals
              1%positive (world_of [user_hi]) [user_hi] Hl Hwf)
    as (working & _ & _ & Hiff).
  intros Hret. apply Hiff in Hret. destruct Hret as (v & r & Hv & Hr).
  injection Hv as <-. discriminate Hr.
Defined.

(** X5.  A reply text that neither starts nor ends with a whitespace
    character comes back as it is: the whitespace inside it is kept. *)
Theorem trimmed_reply_verbatim (v : pyval) (r : pystr) :
  reply_text v = Some r →
  (∀ c, head r = Some c → isspace c = false) →
  (∀ c, last r = Some c → isspace c = false) →
  reply_content v = Return r.
Proof.
  intros Hr Hhead Hlast. rewrite (reply_content_text v r Hr). f_equal.
  assert (Hl : ∀ s : pystr,
             (∀ c, head s = Some c → isspace c = false) → lstrip s = s).
  { intros [|c s] Hs; [done |]. simpl. by rewrite (Hs c eq_refl). }
  unfold strip, rstrip. rewrite (Hl r Hhead).
  rewrite (Hl (reverse r)).
  - apply reverse_involutive.
  - intros c Hc. apply Hlast. by rewrite <- head_reverse.
Qed.

Lemma trimmed_reply_verbatim_witness :
  reply_text (response_of (py "## Soup of the day"))
  = Some (py "## Soup of the day")
  ∧ (∀ c, head (py "## Soup of the day") = Some c → isspace c = false)
  ∧ (∀ c, last (py "## Soup of the day") = Some c → isspace c = false)
  ∧ reply_content (response_of (py "## Soup of the day"))
    = Return (py "## Soup of the day").
Proof.
  assert (Hr : reply_text (response_of (py "## Soup of the day"))
               = Some (py "## Soup of the day")) by reflexivity.
  assert (Hhead : ∀ c, head (py "## Soup of the day") = Some c →
                       isspace c = false)
    by (intros c [= <-]; reflexivity).
  assert (Hlast : ∀ c, last (py "## Soup of the day") = Some c →
                       isspace c = false)
    by (intros c [= <-]; reflexivity).
  split_and!; [done | done | done |].
  exact (trimmed_reply_verbatim _ _ Hr Hhead Hlast).
Defined.

(** ** Further properties of the module constants and of the reply path *)

(** The prompt of a process, whatever its environment. *)
Lemma import_module_prompt (dotenv env : environ) (now : datetime) :
  SYSTEM_PROMPT (import_module dotenv env now)
  = prompt_text (strftime_B now).
Proof. destruct now as [y m d]. destruct m; vm_compute; reflexivity. Qed.

(** The names of the months differ from one another. *)
Lemma strftime_B_month (d1 d2 : datetime) :
  strftime_B d1 = strftime_B d2 → dt_month d1 = dt_month d2.
Proof.
  destruct d1 as [y1 m1 a1], d2 as [y2 m2 a2]. unfold strftime_B. simpl.
  destruct m1, m2; intros H; try reflexivity; vm_compute in H; discriminate H.
Qed.

(** Two texts without a space in them, each followed by [ and], are equal
    when the strings they start are. *)
Lemma prompt_text_month (n1 n2 rest1 rest2 : pystr) :
  n1 ++ py " and" ++ rest1 = n2 ++ py " and" ++ rest2 →
  Forall (λ c, c ≠ 32) n1 → Forall (λ c, c ≠ 32) n2 →
  n1 = n2.
Proof.
  revert n2. induction n1 as [|c n1 IH]; intros [|c2 n2] H H1 H2.
  - done.
  - injection H as Hc _. apply Forall_cons in H2 as [Hne _].
    by vm_compute in Hc.
  - injection H as Hc _. apply Forall_cons in H1 as [Hne _].
    by vm_compute in Hc.
  - injection H as -> H. apply Forall_cons in H1 as [_ H1].
    apply Forall_cons in H2 as [_ H2]. f_equal. by apply IH.
Qed.

(** X6.  Two processes hold the same prompt exactly when they were started
    in the same month: the prompt depends on the month of the import and on
    nothing else, neither the rest of the date nor the environment. *)
Theorem prompt_fixed_by_import_month
    (dotenv1 env1 dotenv2 env2 : environ) (now1 now2 : datetime) :
  SYSTEM_PROMPT (import_module dotenv1 env1 now1)
  = SYSTEM_PROMPT (import_module dotenv2 env2 now2)
  ↔ dt_month now1 = dt_month now2.
Proof.
  rewrite !import_module_prompt. split.
  - intros H. apply strftime_B_month.
    unfold prompt_text in H.
    repeat (apply app_inv_head in H).
    apply (prompt_text_month _ _ _ _ H).
    + destruct now1 as [y m d]. destruct m; vm_compute;
        repeat constructor; discriminate.
    + destruct now2 as [y m d]. destruct m; vm_compute;
        repeat constructor; discriminate.
  - intros H. unfold strftime_B. by rewrite H.
Qed.

(** X7.  A [MODEL_NAME] assigned in the [.env] file is the model name of
    the process, whatever the process environment holds; the process
    environment is read only when the [.env] file does not assign the
    variable. *)
Theorem dotenv_overrides_environment
    (dotenv env : environ) (now : datetime) (v : pystr) :
  dotenv !! py "MODEL_NAME" = Some v →
  MODEL_NAME (import_module dotenv env now) = v.
Proof. intros H. rewrite model_name_sources. by rewrite H. Qed.

Lemma dotenv_overrides_environment_witness :
  ({[ py "MODEL_NAME" := py "anthropic/claude" ]} : environ)
    !! py "MODEL_NAME" = Some (py "anthropic/claude")
  ∧ MODEL_NAME (import_module {[ py "MODEL_NAME" := py "anthropic/claude" ]}
                  {[ py "MODEL_NAME" := py "openai/gpt-4o" ]} may_day)
    = py "anthropic/claude".
Proof.
  assert (H : ({[ py "MODEL_NAME" := py "anthropic/claude" ]} : environ)
                !! py "MODEL_NAME" = Some (py "anthropic/claude"))
    by reflexivity.
  split; [done |].
  exact (dotenv_overrides_environment
           {[ py "MODEL_NAME" := py "anthropic/claude" ]}
           {[ py "MODEL_NAME" := py "openai/gpt-4o" ]} may_day
           (py "anthropic/claude") H).
Defined.

(** X8.  A response whose list of choices is empty makes the subscript [0]
    raise [IndexError]. *)
Theorem empty_choices_raise_IndexError (v : pyval) :
  field v (py "choices") = Some (VList []) →
  reply_content v = Raise IndexError.
Proof.
  intros H. unfold reply_content.
  destruct v as [| | | |d|d]; try done;
    unfold field in H; unfold getitem at 1; by rewrite H.
Qed.

Lemma empty_choices_raise_IndexError_witness :
  field no_choice (py "choices") = Some (VList [])
  ∧ reply_content no_choice = Raise IndexError.
Proof.
  assert (H : field no_choice (py "choices") = Some (VList []))
    by reflexivity.
  split; [done |]. exact (empty_choices_raise_IndexError no_choice H).
Defined.

(** X9.  A response whose first choice has a message whose content is
    [None], as a reply without text has, makes [.strip()] raise
    [AttributeError]: no empty content is put in its place. *)
Theorem none_content_raises_AttributeError
    (v choice msg : pyval) (rest : list pyval) :
  field v (py "choices") = Some (VList (choice :: rest)) →
  field choice (py "message") = Some msg →
  field msg (py "content") = Some VNone →
  reply_content v = Raise (AttributeError (py "strip")).
Proof.
  intros Hv Hc Hm. unfold reply_content.
  assert (Hget : ∀ (x y : pyval) (k : pystr),
             field x k = Some y → getitem x (SKey k) = Return y).
  { intros x y k H. destruct x; try done; unfold field in H; simpl;
      by rewrite H. }
  rewrite (Hget _ _ _ Hv).
  change (getitem (VList (choice :: rest)) (SIdx 0)) with
    (seq_index (choice :: rest) 0).
  rewrite seq_index_0.
  rewrite (Hget _ _ _ Hc). by rewrite (Hget _ _ _ Hm).
Qed.

Lemma none_content_raises_AttributeError_witness :
  field none_content (py "choices")
  = Some (VList [VObj {[ py "message" :=
                           VObj {[ py "content" := VNone ]} ]}])
  ∧ field (VObj {[ py "message" := VObj {[ py "content" := VNone ]} ]})
      (py "message")
    = Some (VObj {[ py "content" := VNone ]})
  ∧ field (VObj {[ py "content" := VNone ]}) (py "content") = Some VNone
  ∧ reply_content none_content = Raise (AttributeError (py "strip")).
Proof.
  split_and!; [reflexivity | reflexivity | reflexivity |].
  apply (none_content_raises_AttributeError none_content
           (VObj {[ py "message" := VObj {[ py "content" := VNone ]} ]})
           (VObj {[ py "content" := VNone ]}) []);
    reflexivity.
Defined.
